(** * bugFix/buggy_script.py: the five functions and their harness

    The practice script defines five small functions
    ([calculate_average], [find_max_value], [is_palindrome], [count_vowels],
    [fibonacci]) and a harness [run_tests].  Each one is embedded below as
    the source writes it, seeded defects included.

    Conventions of the embedding:
    - a Python [int] is a [Z]; a number of a NumberSequence is a [Q]
      (every finite [int] or [float] is a rational, and the comparisons of
      Python on them are the exact ones; the rounding of float arithmetic
      is not modelled);
    - a Python [str] is a [string] of 8-bit characters, so [lower] is the
      ASCII one;
    - a computation that may raise returns an [outcome];
    - [print] appends a line to the output carried by the harness. *)

From Stdlib Require Import ZArith QArith List String Ascii Bool Lia Lqa.
From Stdlib Require Import Permutation.
Import ListNotations.

Local Open Scope Z_scope.

(** ** Outcomes and exceptions *)

Inductive exn : Type :=
| SyntaxError (lineno : nat)
| IndexError
| ZeroDivisionError.

Inductive outcome (A : Type) : Type :=
| Returned (a : A)
| Raised (e : exn).

Arguments Returned {A} a.
Arguments Raised {A} e.

Definition bind {A B : Type} (c : outcome A) (k : A -> outcome B) : outcome B :=
  match c with
  | Returned a => k a
  | Raised e => Raised e
  end.

Notation "x <- c ;; k" := (bind c (fun x => k))
  (at level 61, c at next level, right associativity).

(** ** Python built-ins used by the script *)

Module Py.

(** [l[i]]: a negative index counts from the end, anything outside
    [-len(l) .. len(l)-1] raises IndexError. *)
Definition index {A : Type} (l : list A) (i : Z) : outcome A :=
  let j := if i <? 0 then i + Z.of_nat (List.length l) else i in
  if j <? 0 then Raised IndexError
  else match nth_error l (Z.to_nat j) with
       | Some x => Returned x
       | None => Raised IndexError
       end.

(** [len(l)] *)
Definition len {A : Type} (l : list A) : Z := Z.of_nat (List.length l).

(** [count] consecutive integers from [start]. *)
Fixpoint range_from (start : Z) (count : nat) : list Z :=
  match count with
  | O => []
  | S c => start :: range_from (start + 1) c
  end.

(** [range(a, b)] *)
Definition range (a b : Z) : list Z := range_from a (Z.to_nat (b - a)).

(** [sum(l)]: the items added from the left, starting from 0. *)
Definition sum (l : list Q) : Q := fold_left Qplus l (0%Q).

(** [a / b], true division. *)
Definition truediv (a b : Q) : outcome Q :=
  if Qeq_bool b 0 then Raised ZeroDivisionError else Returned (a / b)%Q.

(** [a > b] on numbers. *)
Definition gt (a b : Q) : bool :=
  match (a ?= b)%Q with
  | Gt => true
  | _ => false
  end.

(** One character of [s.lower()]. *)
Definition lower_char (c : ascii) : ascii :=
  let n := N_of_ascii c in
  if ((65 <=? n) && (n <=? 90))%N then ascii_of_N (n + 32) else c.

(** [s.lower()] *)
Fixpoint lower (s : string) : string :=
  match s with
  | EmptyString => EmptyString
  | String c rest => String (lower_char c) (lower rest)
  end.

(** [s.replace(" ", "")] *)
Fixpoint remove_spaces (s : string) : string :=
  match s with
  | EmptyString => EmptyString
  | String c rest =>
      if Ascii.eqb c " " then remove_spaces rest
      else String c (remove_spaces rest)
  end.

(** [s[::-1]] *)
Definition reversed (s : string) : string :=
  string_of_list_ascii (rev (list_ascii_of_string s)).

(** [c in s] for a one-character [c]. *)
Fixpoint contains (s : string) (c : ascii) : bool :=
  match s with
  | EmptyString => false
  | String d rest => Ascii.eqb c d || contains rest c
  end.

(** [s * n] *)
Fixpoint repeat_string (s : string) (n : nat) : string :=
  match n with
  | O => EmptyString
  | S n' => (s ++ repeat_string s n')%string
  end.

(** [for i in items: s = body(s, i)], stopping at the first exception. *)
Fixpoint for_in {St I : Type} (items : list I) (body : St -> I -> outcome St)
    (s : St) : outcome St :=
  match items with
  | [] => Returned s
  | i :: rest => s' <- body s i ;; for_in rest body s'
  end.

End Py.

(** ** What the parser accepts

    Of the text of a [def] the embedding keeps what decides whether Python
    accepts it: the line of the header and whether it ends with its colon,
    and for every [if]/[elif] the line and whether its condition is an
    expression or has the form [target = value], which is a statement and
    not an expression. *)

Inductive condition_form : Type :=
| Expression
| Assignment.

Record def_text : Type := {
  def_line : nat;
  header_colon : bool;
  conditions : list (nat * condition_form)
}.

Fixpoint first_assignment (cs : list (nat * condition_form)) : option nat :=
  match cs with
  | [] => None
  | (l, Assignment) :: _ => Some l
  | (_, Expression) :: rest => first_assignment rest
  end.

(** The line of the first syntax error of a [def], if any. *)
Definition syntax_error (d : def_text) : option nat :=
  if header_colon d then first_assignment (conditions d)
  else Some (def_line d).

(** Line 22 [def calculate_average(numbers)]: no colon. *)
Definition calculate_average_text : def_text :=
  {| def_line := 22; header_colon := false;
     conditions := [(24, Expression)] |}%nat.

Definition find_max_value_text : def_text :=
  {| def_line := 32; header_colon := true;
     conditions := [(34, Expression); (39, Expression)] |}%nat.

(** Line 52 [if text = reversed_text:]. *)
Definition is_palindrome_text : def_text :=
  {| def_line := 45; header_colon := true;
     conditions := [(52, Assignment)] |}%nat.

Definition count_vowels_text : def_text :=
  {| def_line := 58; header_colon := true;
     conditions := [(64, Expression)] |}%nat.

Definition fibonacci_text : def_text :=
  {| def_line := 70; header_colon := true;
     conditions := [(72, Expression); (74, Expression)] |}%nat.

Definition run_tests_text : def_text :=
  {| def_line := 87; header_colon := true;
     conditions := [(97, Expression); (107, Expression); (117, Expression);
                    (127, Expression); (137, Expression); (145, Expression)]
  |}%nat.

(** A [def] that the parser accepts denotes its body.  One that it rejects
    denotes no function: the file fails with the SyntaxError of that line
    before any call is made, which is the outcome given to every call. *)
Definition def {A B : Type} (d : def_text) (body : A -> outcome B)
    : A -> outcome B :=
  fun x =>
    match syntax_error d with
    | Some l => Raised (SyntaxError l)
    | None => body x
    end.

(** ** calculate_average (lines 22-29) *)

Definition calculate_average_body (numbers : list Q) : outcome Q :=
  if Py.len numbers =? 0 then Returned (0%Q)
  else
    let total := Py.sum numbers in
    average <- Py.truediv total (inject_Z (Py.len numbers)) ;;
    Returned average.

Definition calculate_average : list Q -> outcome Q :=
  def calculate_average_text calculate_average_body.

(** ** find_max_value (lines 32-42) *)

(** One turn of the loop of lines 38-40. *)
Definition find_max_value_step (numbers : list Q) (max_value : Q) (i : Z)
    : outcome Q :=
  x <- Py.index numbers i ;;
  if Py.gt x max_value then Py.index numbers i
  else Returned max_value.

Definition find_max_value_body (numbers : list Q) : outcome (option Q) :=
  match numbers with
  | [] => Returned None
  | _ :: _ =>
      max_value <- Py.index numbers 0 ;;
      max_value <- Py.for_in (Py.range 0 (Py.len numbers))
                     (find_max_value_step numbers) max_value ;;
      Returned (Some max_value)
  end.

Definition find_max_value : list Q -> outcome (option Q) :=
  def find_max_value_text find_max_value_body.

(** ** is_palindrome (lines 45-55) *)

(** The statements of lines 47-55.  The condition of line 52 is not an
    expression; here it is read as the comparison of its two operands, which
    is what the body computes once the parser accepts it. *)
Definition is_palindrome_body (text : string) : outcome bool :=
  let text := Py.remove_spaces (Py.lower text) in
  let reversed_text := Py.reversed text in
  if String.eqb text reversed_text then Returned true
  else Returned false.

Definition is_palindrome : string -> outcome bool :=
  def is_palindrome_text is_palindrome_body.

(** ** count_vowels (lines 58-67) *)

(** One turn of the loop of lines 63-65. *)
Definition count_vowels_step (vowels : string) (count : Z) (char : ascii)
    : outcome Z :=
  if Py.contains vowels char then Returned (count + 1)
  else Returned count.

Definition count_vowels_body (text : string) : outcome Z :=
  let vowels := "aeiou"%string in
  let count := 0 in
  count <- Py.for_in (list_ascii_of_string (Py.lower text))
             (count_vowels_step vowels) count ;;
  Returned (count + 1).

Definition count_vowels : string -> outcome Z :=
  def count_vowels_text count_vowels_body.

(** ** fibonacci (lines 70-84) *)

(** One turn of the loop of lines 80-82. *)
Definition fibonacci_step (fib_sequence : list Z) (i : Z) : outcome (list Z) :=
  a <- Py.index fib_sequence (i - 1) ;;
  b <- Py.index fib_sequence (i - 2) ;;
  let next_fib := a + b in
  Returned (fib_sequence ++ [next_fib]).

Definition fibonacci_body (n : Z) : outcome Z :=
  if n <=? 0 then Returned 0
  else if n =? 1 then Returned 1
  else
    fib_sequence <- Py.for_in (Py.range 2 n) fibonacci_step [0; 1] ;;
    Py.index fib_sequence (n - 1).

Definition fibonacci : Z -> outcome Z :=
  def fibonacci_text fibonacci_body.

(** The Fibonacci sequence 0, 1, 1, 2, 3, 5, 8, 13, 21, ... of the comment
    on line 77. *)
Fixpoint Fib (k : nat) : Z :=
  match k with
  | O => 0
  | S k' => match k' with
            | O => 1
            | S k'' => Fib k' + Fib k''
            end
  end.

(** ** run_tests (lines 87-151) *)

(** What a function under test may hand back to the harness. *)
Inductive value : Type :=
| VNone
| VBool (b : bool)
| VInt (z : Z)
| VFloat (q : Q).

(** The number a value compares as; [True] and [False] are 1 and 0. *)
Definition as_number (v : value) : option Q :=
  match v with
  | VNone => None
  | VBool b => Some (if b then 1%Q else 0%Q)
  | VInt z => Some (inject_Z z)
  | VFloat q => Some q
  end.

(** [a == b] *)
Definition py_eq (a b : value) : bool :=
  match as_number a, as_number b with
  | Some x, Some y => Qeq_bool x y
  | None, None => true
  | _, _ => false
  end.

(** One call of [print].  The two formatted lines keep the values they
    interpolate:
    [Passed r e] is the line [  ✓ Passed: r == e] and
    [Failed r e] is the line [  ✗ Failed: r != e]. *)
Inductive line : Type :=
| Text (s : string)
| Passed (result expected : value)
| Failed (result expected : value).

(** Statements that print and may raise: the output so far goes in, the
    output so far and the outcome come out. *)
Definition io (A : Type) : Type := list line -> list line * outcome A.

Definition io_ret {A : Type} (a : A) : io A := fun out => (out, Returned a).

Definition io_raise {A : Type} (e : exn) : io A := fun out => (out, Raised e).

Definition io_bind {A B : Type} (c : io A) (k : A -> io B) : io B :=
  fun out =>
    match c out with
    | (out', Returned a) => k a out'
    | (out', Raised e) => (out', Raised e)
    end.

Definition print (l : line) : io unit := fun out => (out ++ [l], Returned tt).

Definition call {A : Type} (c : outcome A) : io A := fun out => (out, c).

Notation "x <~ c ;; k" := (io_bind c (fun x => k))
  (at level 61, c at next level, right associativity).
Notation "c ;;; k" := (io_bind c (fun _ => k))
  (at level 61, right associativity).

(** The five names [run_tests] looks up in the module when it runs. *)
Record globals : Type := {
  g_calculate_average : list Q -> outcome value;
  g_find_max_value : list Q -> outcome value;
  g_is_palindrome : string -> outcome value;
  g_count_vowels : string -> outcome value;
  g_fibonacci : Z -> outcome value
}.

Definition newline : string := String (ascii_of_nat 10) EmptyString.

Definition run_tests_body (g : globals) : io unit :=
  print (Text ("Running tests..." ++ newline)) ;;;
  let all_passed := true in
  (* Test 1: calculate_average *)
  print (Text "Test 1: calculate_average") ;;;
  result <~ call (g_calculate_average g [1; 2; 3; 4; 5]%Q) ;;
  let expected := VFloat 3 in
  all_passed <~ (if py_eq result expected
                 then print (Passed result expected) ;;; io_ret all_passed
                 else print (Failed result expected) ;;; io_ret false) ;;
  (* Test 2: find_max_value *)
  print (Text (newline ++ "Test 2: find_max_value")) ;;;
  result <~ call (g_find_max_value g [1; 5; 3; 9; 2]%Q) ;;
  let expected := VInt 9 in
  all_passed <~ (if py_eq result expected
                 then print (Passed result expected) ;;; io_ret all_passed
                 else print (Failed result expected) ;;; io_ret false) ;;
  (* Test 3: is_palindrome *)
  print (Text (newline ++ "Test 3: is_palindrome")) ;;;
  result <~ call (g_is_palindrome g "radar") ;;
  let expected := VBool true in
  all_passed <~ (if py_eq result expected
                 then print (Passed result expected) ;;; io_ret all_passed
                 else print (Failed result expected) ;;; io_ret false) ;;
  (* Test 4: count_vowels *)
  print (Text (newline ++ "Test 4: count_vowels")) ;;;
  result <~ call (g_count_vowels g "hello world") ;;
  let expected := VInt 3 in
  all_passed <~ (if py_eq result expected
                 then print (Passed result expected) ;;; io_ret all_passed
                 else print (Failed result expected) ;;; io_ret false) ;;
  (* Test 5: fibonacci *)
  print (Text (newline ++ "Test 5: fibonacci")) ;;;
  result <~ call (g_fibonacci g 6) ;;
  let expected := VInt 8 in
  all_passed <~ (if py_eq result expected
                 then print (Passed result expected) ;;; io_ret all_passed
                 else print (Failed result expected) ;;; io_ret false) ;;
  (* Summary *)
  print (Text (newline ++ Py.repeat_string "=" 40)) ;;;
  (if all_passed : bool
   then print (Text "All tests passed! ✓") ;;;
        print (Text "The script is working correctly.")
   else print (Text "Some tests failed. ✗") ;;;
        print (Text "Keep debugging!")) ;;;
  print (Text (Py.repeat_string "=" 40)).

Definition run_tests (g : globals) : io unit :=
  match syntax_error run_tests_text with
  | Some l => io_raise (SyntaxError l)
  | None => run_tests_body g
  end.

(** ** The script as a whole *)

(** The functions of the script, as [run_tests] finds them.  A number of a
    sequence is handed over as a [VFloat]; [py_eq] compares numbers by
    value, whichever of [int] and [float] they are. *)
Definition script_globals : globals := {|
  g_calculate_average := fun l => x <- calculate_average l ;; Returned (VFloat x);
  g_find_max_value := fun l =>
    r <- find_max_value l ;;
    Returned (match r with Some x => VFloat x | None => VNone end);
  g_is_palindrome := fun s => b <- is_palindrome s ;; Returned (VBool b);
  g_count_vowels := fun s => n <- count_vowels s ;; Returned (VInt n);
  g_fibonacci := fun n => r <- fibonacci n ;; Returned (VInt r)
|}.

Definition script : list def_text :=
  [calculate_average_text; find_max_value_text; is_palindrome_text;
   count_vowels_text; fibonacci_text; run_tests_text].

(** The first syntax error of a file, top to bottom. *)
Fixpoint compile (defs : list def_text) : option nat :=
  match defs with
  | [] => None
  | d :: rest =>
      match syntax_error d with
      | Some l => Some l
      | None => compile rest
      end
  end.

(** Lines 154-155: running the file.  Nothing runs unless the whole file
    parses. *)
Definition main : io unit :=
  match compile script with
  | Some l => io_raise (SyntaxError l)
  | None => run_tests script_globals
  end.

(** ** Reference notions the properties are stated with *)

(** The first [m] Fibonacci numbers. *)
Definition fibs (m : nat) : list Z := map Fib (seq 0 m).

(** Whether [fibonacci(n) == fibonacci(n-1) + fibonacci(n-2)]. *)
Definition recurrence_at (n : Z) : bool :=
  match fibonacci n, fibonacci (n - 1), fibonacci (n - 2) with
  | Returned a, Returned b, Returned c => a =? b + c
  | _, _, _ => false
  end.

(** Membership in the vowel set a, e, i, o, u. *)
Definition is_vowel (c : ascii) : bool :=
  Ascii.eqb c "a" || Ascii.eqb c "e" || Ascii.eqb c "i" || Ascii.eqb c "o"
  || Ascii.eqb c "u".

(** The number of vowel occurrences in the lower-cased text. *)
Definition vowel_occurrences (text : string) : nat :=
  List.length (filter is_vowel (list_ascii_of_string (Py.lower text))).

(** The text once lower-cased and stripped of its spaces. *)
Definition normalize (text : string) : string :=
  Py.remove_spaces (Py.lower text).

(** The better of the running maximum and one more element. *)
Definition pick (max_value x : Q) : Q :=
  if Py.gt x max_value then x else max_value.

(** The pass/fail line of one case. *)
Definition verdict (result expected : value) : line :=
  if py_eq result expected then Passed result expected
  else Failed result expected.

(** What a complete run prints, given what the five calls returned. *)
Definition complete_output (r1 r2 r3 r4 r5 : value) : list line :=
  [ Text ("Running tests..." ++ newline);
    Text "Test 1: calculate_average"; verdict r1 (VFloat 3);
    Text (newline ++ "Test 2: find_max_value"); verdict r2 (VInt 9);
    Text (newline ++ "Test 3: is_palindrome"); verdict r3 (VBool true);
    Text (newline ++ "Test 4: count_vowels"); verdict r4 (VInt 3);
    Text (newline ++ "Test 5: fibonacci"); verdict r5 (VInt 8);
    Text (newline ++ Py.repeat_string "=" 40) ]
  ++ (if py_eq r1 (VFloat 3) && py_eq r2 (VInt 9) && py_eq r3 (VBool true)
         && py_eq r4 (VInt 3) && py_eq r5 (VInt 8)
      then [ Text "All tests passed! ✓";
             Text "The script is working correctly." ]
      else [ Text "Some tests failed. ✗"; Text "Keep debugging!" ])
  ++ [ Text (Py.repeat_string "=" 40) ].

(** The five functions as [run_tests] would find them if lines 22 and 52
    parsed: the three accepted functions, and the bodies of the other
    two. *)
Definition parsed_globals : globals := {|
  g_calculate_average := fun l =>
    x <- calculate_average_body l ;; Returned (VFloat x);
  g_find_max_value := g_find_max_value script_globals;
  g_is_palindrome := fun s => b <- is_palindrome_body s ;; Returned (VBool b);
  g_count_vowels := g_count_vowels script_globals;
  g_fibonacci := g_fibonacci script_globals
|}.

(** ** tests/test_fixed_script.py: the two tests that are not a fixed pair *)

(** [sum(...)] of integers. *)
Definition sum_ints (l : list Z) : Z := fold_left Z.add l 0.

(** Line 202: [sum(1 for char in text.lower() if char in "aeiou")]. *)
Definition vowel_oracle (text : string) : Z :=
  sum_ints (map (fun _ : ascii => 1)
              (filter (Py.contains "aeiou")
                 (list_ascii_of_string (Py.lower text)))).

(** Lines 201-203 for a given [text]: whether the assertion holds. *)
Definition vowel_count_check (text : string) : outcome bool :=
  let vowels := vowel_oracle text in
  r <- count_vowels text ;; Returned (r =? vowels).

Definition test_vowel_count_comprehensive : outcome bool :=
  vowel_count_check "The quick brown fox jumps over the lazy dog".

(** [list(range(n))] as a sequence of numbers. *)
Definition range_list (n : Z) : list Q := map inject_Z (Py.range 0 n).

(** Lines 191-192 for a list of [n] numbers: whether the assertion holds. *)
Definition large_list_check (n : Z) : outcome bool :=
  let large_list := range_list n in
  r <- find_max_value large_list ;;
  Returned (match r with
            | Some m => Qeq_bool m (inject_Z (n - 1))
            | None => false
            end).

Definition test_find_max_with_large_list : outcome bool :=
  large_list_check 1000.

(** * Properties *)

(** ** Indexing and loops *)

Lemma index_nth_error {A : Type} (l : list A) (k : nat) (x : A) :
  nth_error l k = Some x -> Py.index l (Z.of_nat k) = Returned x.
Proof.
  intros H. unfold Py.index.
  destruct (Z.of_nat k <? 0) eqn:E; [apply Z.ltb_lt in E; lia |].
  rewrite E, Nat2Z.id, H. reflexivity.
Qed.

(** ** fibonacci *)

Lemma Fib_rec (k : nat) : Fib (S (S k)) = Fib (S k) + Fib k.
Proof. reflexivity. Qed.

Lemma fibs_nth (m k : nat) : (k < m)%nat -> nth_error (fibs m) k = Some (Fib k).
Proof.
  intros H. unfold fibs.
  rewrite nth_error_map, nth_error_seq.
  destruct (Nat.ltb_spec k m); [reflexivity | lia].
Qed.

Lemma fibs_S (m : nat) : fibs (S m) = fibs m ++ [Fib m].
Proof. unfold fibs. rewrite seq_S, map_app. reflexivity. Qed.

Lemma fibonacci_step_fibs (m : nat) :
  fibonacci_step (fibs (S (S m))) (Z.of_nat (S (S m)))
  = Returned (fibs (S (S (S m)))).
Proof.
  unfold fibonacci_step.
  replace (Z.of_nat (S (S m)) - 1) with (Z.of_nat (S m)) by lia.
  replace (Z.of_nat (S (S m)) - 2) with (Z.of_nat m) by lia.
  rewrite (index_nth_error _ _ (Fib (S m))) by (apply fibs_nth; lia).
  rewrite (index_nth_error _ _ (Fib m)) by (apply fibs_nth; lia).
  simpl bind. rewrite (fibs_S (S (S m))), Fib_rec. reflexivity.
Qed.

(** The loop of lines 80-82 keeps [fib_sequence] a prefix of the Fibonacci
    sequence and lengthens it by one at every turn. *)
Lemma fibonacci_loop (c m : nat) :
  Py.for_in (Py.range_from (Z.of_nat (S (S m))) c) fibonacci_step
    (fibs (S (S m)))
  = Returned (fibs (S (S m) + c)).
Proof.
  revert m. induction c as [| c IH]; intros m.
  - simpl. rewrite Nat.add_0_r. reflexivity.
  - cbn [Py.range_from Py.for_in]. rewrite fibonacci_step_fibs. cbn [bind].
    replace (Z.of_nat (S (S m)) + 1) with (Z.of_nat (S (S (S m)))) by lia.
    rewrite IH. f_equal. f_equal. lia.
Qed.

(** For [n >= 2] the function returns the Fibonacci number of index
    [n - 1]: the loop stops one turn early and line 84 reads index
    [n - 1]. *)
Lemma fibonacci_shifted (n : Z) :
  2 <= n -> fibonacci n = Returned (Fib (Z.to_nat (n - 1))).
Proof.
  intros H. unfold fibonacci, def. cbn [syntax_error fibonacci_text header_colon
    conditions first_assignment]. unfold fibonacci_body.
  destruct (n <=? 0) eqn:E0; [apply Z.leb_le in E0; lia |].
  destruct (n =? 1) eqn:E1; [apply Z.eqb_eq in E1; lia |].
  unfold Py.range.
  pose proof (fibonacci_loop (Z.to_nat (n - 2)) 0) as L.
  change (Z.of_nat 2) with 2 in L. change (fibs 2) with [0; 1] in L.
  rewrite L. cbn [bind].
  replace (n - 1) with (Z.of_nat (Z.to_nat (n - 1))) at 1 by lia.
  apply index_nth_error, fibs_nth. lia.
Qed.

Lemma fibonacci_shifted_witness : fibonacci 6 = Returned (Fib (Z.to_nat (6 - 1))).
Proof. apply fibonacci_shifted. lia. Defined.

(** X5.  Away from index 3 the returned values do satisfy the recurrence:
    for every [n >= 2] other than 3, [fibonacci(n)] is
    [fibonacci(n-1) + fibonacci(n-2)]. *)
Lemma fibonacci_recurrence_elsewhere (n : Z) :
  2 <= n -> n <> 3 -> recurrence_at n = true.
Proof.
  intros H H3. destruct (Z.eq_dec n 2) as [-> | H2]; [reflexivity |].
  unfold recurrence_at.
  rewrite !fibonacci_shifted by lia.
  replace (Z.to_nat (n - 1)) with (S (S (Z.to_nat (n - 2 - 1)))) by lia.
  replace (Z.to_nat (n - 1 - 1)) with (S (Z.to_nat (n - 2 - 1))) by lia.
  rewrite Fib_rec. apply Z.eqb_refl.
Qed.

Lemma fibonacci_recurrence_elsewhere_witness : recurrence_at 10 = true.
Proof. apply fibonacci_recurrence_elsewhere; lia. Defined.

(** C1 (the code departs from the claim).  [fibonacci(6)] returns 5 and
    [fibonacci(10)] returns 34: the sequence is built up to index [n - 1]
    and the value at index [n - 1] is returned, where the claim has index
    [n], 8 and 55. *)
Theorem fibonacci_returns_previous_index :
  fibonacci 6 = Returned 5 /\ fibonacci 10 = Returned 34 /\
  Fib 6 = 8 /\ Fib 10 = 55.
Proof. repeat split; reflexivity. Qed.

(** C7 (the code departs from the claim).  At [n = 3] the recurrence
    fails: [fibonacci(3)] returns 1 while [fibonacci(2)] and
    [fibonacci(1)] both return 1, whose sum is 2. *)
Theorem fibonacci_recurrence_fails_at_3 :
  recurrence_at 3 = false /\
  fibonacci 3 = Returned 1 /\ fibonacci (3 - 1) = Returned 1 /\
  fibonacci (3 - 2) = Returned 1.
Proof. repeat split; reflexivity. Qed.

(** C8.  [fibonacci(0)] is 0, [fibonacci(1)] is 1, and [fibonacci(n)] is 0
    for every [n <= 0]. *)
Theorem fibonacci_base_cases :
  fibonacci 0 = Returned 0 /\ fibonacci 1 = Returned 1 /\
  forall n : Z, n <= 0 -> fibonacci n = Returned 0.
Proof.
  split; [reflexivity |]. split; [reflexivity |].
  intros n H. unfold fibonacci, def. cbn [syntax_error fibonacci_text header_colon
    conditions first_assignment]. unfold fibonacci_body.
  destruct (n <=? 0) eqn:E; [reflexivity |].
  apply Z.leb_gt in E. lia.
Qed.

Lemma fibonacci_base_cases_witness :
  -7 <= 0 /\ fibonacci (-7) = Returned 0.
Proof.
  split; [lia |].
  exact (proj2 (proj2 fibonacci_base_cases) (-7) ltac:(lia)).
Defined.

(** ** count_vowels *)

Lemma contains_vowels (c : ascii) : Py.contains "aeiou" c = is_vowel c.
Proof.
  unfold is_vowel. cbn [Py.contains].
  rewrite orb_false_r, !orb_assoc. reflexivity.
Qed.

(** The loop of lines 63-65 adds the number of vowels to [count]. *)
Lemma count_vowels_loop (chars : list ascii) (count : Z) :
  Py.for_in chars (count_vowels_step "aeiou") count
  = Returned (count + Z.of_nat (List.length (filter is_vowel chars))).
Proof.
  revert count. induction chars as [| c chars IH]; intros count.
  - simpl. f_equal. lia.
  - cbn [Py.for_in filter]. unfold count_vowels_step at 1.
    rewrite contains_vowels.
    destruct (is_vowel c); cbn [bind]; rewrite IH; f_equal;
      cbn [List.length]; lia.
Qed.

(** On every text the function returns one more than the number of vowel
    occurrences (line 67). *)
Lemma count_vowels_offset (text : string) :
  count_vowels text = Returned (Z.of_nat (vowel_occurrences text) + 1).
Proof.
  unfold count_vowels, def. cbn [syntax_error count_vowels_text header_colon
    conditions first_assignment]. unfold count_vowels_body.
  rewrite count_vowels_loop. reflexivity.
Qed.

(** C2 (the code departs from the claim).  [count_vowels("hello world")]
    returns 4 where the text has 3 vowels; a text with no letter at all
    gets 1. *)
Theorem count_vowels_adds_one :
  count_vowels "hello world" = Returned 4 /\
  vowel_occurrences "hello world" = 3%nat /\
  count_vowels "123!" = Returned 1 /\
  vowel_occurrences "123!" = 0%nat.
Proof. repeat split; reflexivity. Qed.

(** ** find_max_value *)

Lemma skipn_nth_error {A : Type} (l : list A) (a : nat) (x : A) :
  nth_error l a = Some x -> skipn a l = x :: skipn (S a) l.
Proof.
  revert a. induction l as [| y l IH]; intros [| a] H; simpl in *;
    try discriminate.
  - congruence.
  - apply IH in H. exact H.
Qed.

Lemma find_max_value_step_pick (numbers : list Q) (a : nat) (x m : Q) :
  nth_error numbers a = Some x ->
  find_max_value_step numbers m (Z.of_nat a) = Returned (pick m x).
Proof.
  intros H. unfold find_max_value_step, pick.
  rewrite (index_nth_error _ _ _ H). cbn [bind].
  destruct (Py.gt x m); reflexivity.
Qed.

(** The loop of lines 38-40 over the indices [a .. a+c-1] is a left fold
    of [pick] over the elements at these indices. *)
Lemma find_max_value_loop (numbers : list Q) (c a : nat) (m : Q) :
  (a + c <= List.length numbers)%nat ->
  Py.for_in (Py.range_from (Z.of_nat a) c) (find_max_value_step numbers) m
  = Returned (fold_left pick (firstn c (skipn a numbers)) m).
Proof.
  revert a m. induction c as [| c IH]; intros a m H.
  - reflexivity.
  - destruct (nth_error numbers a) as [x |] eqn:E.
    2:{ apply nth_error_None in E. lia. }
    cbn [Py.range_from Py.for_in].
    rewrite (find_max_value_step_pick _ _ _ _ E). cbn [bind].
    replace (Z.of_nat a + 1) with (Z.of_nat (S a)) by lia.
    rewrite IH by lia.
    rewrite (skipn_nth_error _ _ _ E). reflexivity.
Qed.

Lemma gt_true (x m : Q) : Py.gt x m = true -> (m < x)%Q.
Proof.
  unfold Py.gt. destruct (x ?= m)%Q eqn:E; try discriminate.
  intros _. apply Qgt_alt. exact E.
Qed.

Lemma gt_false (x m : Q) : Py.gt x m = false -> (x <= m)%Q.
Proof.
  unfold Py.gt. intros H. apply Qle_alt.
  destruct (x ?= m)%Q; discriminate.
Qed.

Lemma pick_ge_left (m x : Q) : (m <= pick m x)%Q.
Proof.
  unfold pick. destruct (Py.gt x m) eqn:E.
  - apply Qlt_le_weak, gt_true, E.
  - apply Qle_refl.
Qed.

Lemma pick_ge_right (m x : Q) : (x <= pick m x)%Q.
Proof.
  unfold pick. destruct (Py.gt x m) eqn:E.
  - apply Qle_refl.
  - apply gt_false, E.
Qed.

Lemma fold_pick_ge_init (l : list Q) (m : Q) : (m <= fold_left pick l m)%Q.
Proof.
  revert m. induction l as [| x l IH]; intros m; simpl.
  - apply Qle_refl.
  - eapply Qle_trans; [apply pick_ge_left | apply IH].
Qed.

Lemma fold_pick_upper_bound (l : list Q) (m x : Q) :
  In x l -> (x <= fold_left pick l m)%Q.
Proof.
  revert m. induction l as [| y l IH]; intros m H; simpl in *; [contradiction |].
  destruct H as [-> | H].
  - eapply Qle_trans; [apply pick_ge_right | apply fold_pick_ge_init].
  - apply IH, H.
Qed.

Lemma fold_pick_In (l : list Q) (m : Q) :
  fold_left pick l m = m \/ In (fold_left pick l m) l.
Proof.
  revert m. induction l as [| y l IH]; intros m; simpl; [left; reflexivity |].
  destruct (IH (pick m y)) as [H | H].
  - rewrite H. unfold pick. destruct (Py.gt y m); auto.
  - right. right. exact H.
Qed.

(** On a non-empty sequence the function returns the left fold of [pick]
    from the first element. *)
Lemma find_max_value_fold (x : Q) (rest : list Q) :
  find_max_value (x :: rest)
  = Returned (Some (fold_left pick (x :: rest) x)).
Proof.
  unfold find_max_value, def. cbn [syntax_error find_max_value_text
    header_colon conditions first_assignment]. unfold find_max_value_body.
  change (Py.index (x :: rest) 0) with (Returned x). cbn [bind].
  unfold Py.range, Py.len. rewrite Z.sub_0_r, Nat2Z.id.
  change 0 with (Z.of_nat 0).
  rewrite find_max_value_loop by (simpl; lia).
  cbn [bind skipn]. rewrite firstn_all. reflexivity.
Qed.

(** C5.  [find_max_value([])] is [None]; on a non-empty sequence the result
    is an element of the sequence that no element exceeds, wherever it
    stands and whatever the signs. *)
Theorem find_max_value_is_maximum :
  find_max_value [] = Returned None /\
  forall numbers : list Q, numbers <> [] ->
    exists m : Q,
      find_max_value numbers = Returned (Some m) /\ In m numbers /\
      forall x : Q, In x numbers -> (x <= m)%Q.
Proof.
  split; [reflexivity |].
  intros [| x rest] H; [contradiction |].
  exists (fold_left pick (x :: rest) x). split; [apply find_max_value_fold |].
  split.
  - destruct (fold_pick_In (x :: rest) x) as [E | E].
    + rewrite E. left. reflexivity.
    + exact E.
  - intros y Hy. apply fold_pick_upper_bound, Hy.
Qed.

Lemma find_max_value_is_maximum_witness :
  exists m : Q,
    find_max_value [-5; -2; -10; -1]%Q = Returned (Some m) /\
    In m [-5; -2; -10; -1]%Q /\
    forall x : Q, In x [-5; -2; -10; -1]%Q -> (x <= m)%Q.
Proof.
  apply (proj2 find_max_value_is_maximum [-5; -2; -10; -1]%Q).
  discriminate.
Defined.

(** C10.  On a non-empty sequence the returned value is one of its
    elements. *)
Theorem find_max_value_in_input (numbers : list Q) :
  numbers <> [] ->
  exists m : Q, find_max_value numbers = Returned (Some m) /\ In m numbers.
Proof.
  destruct numbers as [| x rest]; intros H; [contradiction |].
  exists (fold_left pick (x :: rest) x). split; [apply find_max_value_fold |].
  destruct (fold_pick_In (x :: rest) x) as [E | E].
  - rewrite E. left. reflexivity.
  - exact E.
Qed.

Lemma find_max_value_in_input_witness :
  exists m : Q,
    find_max_value [1; 5; 3; 9; 2]%Q = Returned (Some m) /\
    In m [1; 5; 3; 9; 2]%Q.
Proof. apply find_max_value_in_input. discriminate. Defined.

Example find_max_value_first : find_max_value [10; 5; 3; 1]%Q = Returned (Some 10%Q).
Proof. reflexivity. Qed.

Example find_max_value_last : find_max_value [1; 3; 5; 10]%Q = Returned (Some 10%Q).
Proof. reflexivity. Qed.

Example find_max_value_negative :
  find_max_value [-5; -2; -10; -1]%Q = Returned (Some (-1)%Q).
Proof. reflexivity. Qed.

(** ** calculate_average *)

Lemma len_cons_nonzero (x : Q) (rest : list Q) :
  ~ (inject_Z (Py.len (x :: rest)) == 0)%Q.
Proof.
  unfold Py.len, Qeq. cbn [Qnum Qden inject_Z List.length]. lia.
Qed.

(** Lines 23-29 on their own: 0 on the empty sequence, otherwise the sum
    divided by the length, which no exception interrupts. *)
Lemma calculate_average_body_spec :
  calculate_average_body [] = Returned (0%Q) /\
  forall numbers : list Q, numbers <> [] ->
    calculate_average_body numbers
    = Returned (Py.sum numbers / inject_Z (Py.len numbers))%Q.
Proof.
  split; [reflexivity |].
  intros [| x rest] H; [contradiction |].
  unfold calculate_average_body.
  destruct (Py.len (x :: rest) =? 0) eqn:E.
  { apply Z.eqb_eq in E. unfold Py.len in E. simpl in E. lia. }
  unfold Py.truediv.
  destruct (Qeq_bool (inject_Z (Py.len (x :: rest))) 0) eqn:E0.
  { apply Qeq_bool_eq in E0. destruct (len_cons_nonzero _ _ E0). }
  reflexivity.
Qed.

(** The value of lines 27-28 times the length is the sum. *)
Lemma calculate_average_body_mean (numbers : list Q) (a : Q) :
  numbers <> [] -> calculate_average_body numbers = Returned a ->
  (a * inject_Z (Py.len numbers) == Py.sum numbers)%Q.
Proof.
  intros H E.
  rewrite (proj2 calculate_average_body_spec numbers H) in E.
  injection E as <-.
  destruct numbers as [| x rest]; [contradiction |].
  rewrite Qmult_comm. apply Qmult_div_r, len_cons_nonzero.
Qed.

(** C4 (the code departs from the claim).  The header of line 22 has no
    colon, so no call of [calculate_average] returns: on the empty sequence
    the outcome is the SyntaxError of line 22 where the claim has 0, and on
    [[1, 2, 3, 4, 5]] likewise where lines 27-28 would give 3. *)
Theorem calculate_average_header_rejected :
  calculate_average [] = Raised (SyntaxError 22) /\
  calculate_average [1; 2; 3; 4; 5]%Q = Raised (SyntaxError 22) /\
  calculate_average_body [] = Returned (0%Q) /\
  calculate_average_body [1; 2; 3; 4; 5]%Q = Returned (15 / 5)%Q.
Proof. repeat split; reflexivity. Qed.

(** ** is_palindrome *)

(** Lines 47-55 with the condition of line 52 read as a comparison: true
    exactly when the normalized text is its own reversal. *)
Lemma is_palindrome_body_spec (text : string) :
  is_palindrome_body text
  = Returned (String.eqb (normalize text) (Py.reversed (normalize text))) /\
  (is_palindrome_body text = Returned true
   <-> normalize text = Py.reversed (normalize text)).
Proof.
  unfold is_palindrome_body. fold (normalize text).
  destruct (String.eqb (normalize text) (Py.reversed (normalize text))) eqn:E.
  - split; [reflexivity |]. split; intros _; [| reflexivity].
    apply String.eqb_eq, E.
  - split; [reflexivity |]. split; [discriminate |].
    intros H. apply String.eqb_eq in H. congruence.
Qed.

Lemma is_palindrome_body_short :
  is_palindrome_body "" = Returned true /\
  forall c : ascii, is_palindrome_body (String c "") = Returned true.
Proof.
  split; [reflexivity |].
  intros c. unfold is_palindrome_body. cbn [Py.lower Py.remove_spaces].
  destruct (Ascii.eqb (Py.lower_char c) " "); [reflexivity |].
  unfold Py.reversed. cbn [list_ascii_of_string rev app string_of_list_ascii].
  rewrite String.eqb_refl. reflexivity.
Qed.

(** C6 (the code departs from the claim).  Line 52 tests [text =
    reversed_text], which is not an expression, so no call of
    [is_palindrome] returns: the empty text, a one-character text and
    ["radar"] all end in the SyntaxError of line 52 where the claim has
    true. *)
Theorem is_palindrome_condition_rejected :
  is_palindrome "" = Raised (SyntaxError 52) /\
  is_palindrome "a" = Raised (SyntaxError 52) /\
  is_palindrome "radar" = Raised (SyntaxError 52) /\
  is_palindrome_body "radar" = Returned true.
Proof. repeat split; reflexivity. Qed.

(** ** Which functions can raise *)

Lemma find_max_value_returns (numbers : list Q) :
  exists r : option Q, find_max_value numbers = Returned r.
Proof.
  destruct numbers as [| x rest].
  - exists None. reflexivity.
  - eexists. apply find_max_value_fold.
Qed.

Lemma count_vowels_returns (text : string) :
  exists n : Z, count_vowels text = Returned n.
Proof. eexists. apply count_vowels_offset. Qed.

Lemma fibonacci_returns (n : Z) : exists r : Z, fibonacci n = Returned r.
Proof.
  destruct (Z_le_gt_dec n 0) as [H | H].
  - exists 0.
    unfold fibonacci, def. cbn [syntax_error fibonacci_text header_colon
      conditions first_assignment]. unfold fibonacci_body.
    destruct (n <=? 0) eqn:E; [reflexivity | apply Z.leb_gt in E; lia].
  - destruct (Z.eq_dec n 1) as [-> | H1].
    + exists 1. reflexivity.
    + eexists. apply fibonacci_shifted. lia.
Qed.

(** C3 (the code departs from the claim).  The file has both kinds of
    malformed text the claim excludes: the header of line 22 lacks its
    colon and the condition of line 52 is an assignment.  Running the file
    stops on the SyntaxError of line 22 with nothing printed, and every call
    of [calculate_average] or [is_palindrome] on a well-formed argument ends
    in a SyntaxError. *)
Theorem script_has_syntax_errors :
  syntax_error calculate_average_text = Some 22%nat /\
  syntax_error is_palindrome_text = Some 52%nat /\
  compile script = Some 22%nat /\
  main [] = ([], Raised (SyntaxError 22)) /\
  (forall numbers : list Q,
     calculate_average numbers = Raised (SyntaxError 22)) /\
  (forall text : string, is_palindrome text = Raised (SyntaxError 52)).
Proof. repeat split; reflexivity. Qed.

(** ** run_tests *)

Ltac run_prints :=
  cbv [io_bind print call io_ret];
  repeat match goal with
         | H : _ = Returned _ |- _ => rewrite H; clear H
         end.

(** C9.  Whatever the five calls return, [run_tests] goes through the five
    cases in order, prints a pass/fail line for each, then the summary, and
    ends normally: a comparison that fails stops nothing. *)
Theorem run_tests_evaluates_all_cases
    (g : globals) (r1 r2 r3 r4 r5 : value) (out : list line) :
  g_calculate_average g [1; 2; 3; 4; 5]%Q = Returned r1 ->
  g_find_max_value g [1; 5; 3; 9; 2]%Q = Returned r2 ->
  g_is_palindrome g "radar" = Returned r3 ->
  g_count_vowels g "hello world" = Returned r4 ->
  g_fibonacci g 6 = Returned r5 ->
  run_tests g out = (out ++ complete_output r1 r2 r3 r4 r5, Returned tt).
Proof.
  intros H1 H2 H3 H4 H5.
  unfold run_tests. cbn [syntax_error run_tests_text header_colon conditions
    first_assignment]. unfold run_tests_body, complete_output, verdict.
  run_prints.
  destruct (py_eq r1 (VFloat 3)), (py_eq r2 (VInt 9)),
    (py_eq r3 (VBool true)), (py_eq r4 (VInt 3)), (py_eq r5 (VInt 8));
    cbn [andb app]; rewrite <- !app_assoc; reflexivity.
Qed.

Lemma run_tests_evaluates_all_cases_witness :
  run_tests parsed_globals []
  = ([] ++ complete_output (VFloat (15 / 5)) (VFloat 9) (VBool true)
             (VInt 4) (VInt 5),
     Returned tt).
Proof.
  apply (run_tests_evaluates_all_cases parsed_globals); reflexivity.
Defined.

(** The run of the witness: cases 4 and 5 fail and the run goes on to the
    summary. *)
Example run_tests_parsed_globals :
  run_tests parsed_globals []
  = ([ Text ("Running tests..." ++ newline);
       Text "Test 1: calculate_average"; Passed (VFloat (15 / 5)) (VFloat 3);
       Text (newline ++ "Test 2: find_max_value"); Passed (VFloat 9) (VInt 9);
       Text (newline ++ "Test 3: is_palindrome");
       Passed (VBool true) (VBool true);
       Text (newline ++ "Test 4: count_vowels"); Failed (VInt 4) (VInt 3);
       Text (newline ++ "Test 5: fibonacci"); Failed (VInt 5) (VInt 8);
       Text (newline ++ Py.repeat_string "=" 40);
       Text "Some tests failed. ✗"; Text "Keep debugging!";
       Text (Py.repeat_string "=" 40) ],
     Returned tt).
Proof. reflexivity. Qed.

(** An exception of a function under test is not a failing comparison: the
    harness has no handler and stops there. *)
Lemma run_tests_propagates_first_exception
    (g : globals) (e : exn) (out : list line) :
  g_calculate_average g [1; 2; 3; 4; 5]%Q = Raised e ->
  run_tests g out
  = (out ++ [ Text ("Running tests..." ++ newline);
              Text "Test 1: calculate_average" ],
     Raised e).
Proof.
  intros H. unfold run_tests. cbn [syntax_error run_tests_text header_colon
    conditions first_assignment]. unfold run_tests_body.
  cbv [io_bind print call io_ret]. rewrite H, <- app_assoc. reflexivity.
Qed.

(** * Further properties of the code *)

(** ** fibonacci: what the loop builds and what comes back *)

Lemma Fib_nonneg_pair (k : nat) : 0 <= Fib k /\ 0 <= Fib (S k).
Proof.
  induction k as [| k [IH0 IH1]].
  - split; simpl; lia.
  - split; [exact IH1 |]. rewrite Fib_rec. lia.
Qed.

Lemma Fib_nonneg (k : nat) : 0 <= Fib k.
Proof. apply Fib_nonneg_pair. Qed.

Lemma Fib_step_le (k : nat) : Fib k <= Fib (S k).
Proof.
  destruct k as [| k]; [simpl; lia |].
  rewrite Fib_rec. pose proof (Fib_nonneg k). lia.
Qed.

Lemma Fib_monotone (j k : nat) : (j <= k)%nat -> Fib j <= Fib k.
Proof.
  induction 1 as [| k H IH]; [lia |].
  pose proof (Fib_step_le k). lia.
Qed.

(** What [fibonacci] returns on each integer. *)
Lemma fibonacci_value (n : Z) :
  fibonacci n
  = Returned (if n <=? 0 then 0 else Fib (Z.to_nat (Z.max 1 (n - 1)))).
Proof.
  destruct (n <=? 0) eqn:E0.
  - unfold fibonacci, def. cbn [syntax_error fibonacci_text header_colon
      conditions first_assignment]. unfold fibonacci_body.
    rewrite E0. reflexivity.
  - apply Z.leb_gt in E0. destruct (Z.eq_dec n 1) as [-> | H1]; [reflexivity |].
    rewrite fibonacci_shifted by lia. do 2 f_equal. lia.
Qed.



(** X2.  For [n >= 2] the loop of lines 80-82 ends without an IndexError
    and leaves in [fib_sequence] the Fibonacci numbers of indices 0 to
    [n - 1], [n] entries in all. *)
Theorem fibonacci_loop_builds_first_n (n : Z) :
  2 <= n ->
  Py.for_in (Py.range 2 n) fibonacci_step [0; 1]
  = Returned (map Fib (seq 0 (Z.to_nat n))) /\
  Py.len (map Fib (seq 0 (Z.to_nat n))) = n.
Proof.
  intros H. split.
  - unfold Py.range.
    pose proof (fibonacci_loop (Z.to_nat (n - 2)) 0) as L.
    change (Z.of_nat 2) with 2 in L. change (fibs 2) with [0; 1] in L.
    rewrite L. unfold fibs. do 3 f_equal. lia.
  - unfold Py.len. rewrite length_map, length_seq. lia.
Qed.

Lemma fibonacci_loop_builds_first_n_witness :
  Py.for_in (Py.range 2 6) fibonacci_step [0; 1]
  = Returned (map Fib (seq 0 (Z.to_nat 6))) /\
  Py.len (map Fib (seq 0 (Z.to_nat 6))) = 6.
Proof. apply fibonacci_loop_builds_first_n. lia. Defined.

(** X3.  On every integer the call returns, and what it returns is never
    negative. *)
Theorem fibonacci_never_negative (n : Z) :
  exists r : Z, fibonacci n = Returned r /\ 0 <= r.
Proof.
  eexists. split; [apply fibonacci_value |].
  destruct (n <=? 0); [lia | apply Fib_nonneg].
Qed.

(** X4.  The returned values never decrease as the argument grows. *)
Theorem fibonacci_monotone (m n : Z) :
  m <= n ->
  exists a b : Z,
    fibonacci m = Returned a /\ fibonacci n = Returned b /\ a <= b.
Proof.
  intros H. do 2 eexists.
  split; [apply fibonacci_value |]. split; [apply fibonacci_value |].
  destruct (m <=? 0) eqn:Em, (n <=? 0) eqn:En;
    try apply Z.leb_le in Em; try apply Z.leb_le in En;
    try apply Z.leb_gt in Em; try apply Z.leb_gt in En.
  - lia.
  - apply Fib_nonneg.
  - lia.
  - apply Fib_monotone. lia.
Qed.

Lemma fibonacci_monotone_witness :
  exists a b : Z,
    fibonacci 3 = Returned a /\ fibonacci 9 = Returned b /\ a <= b.
Proof. apply fibonacci_monotone. lia. Defined.

(** ** count_vowels: bounds, case and concatenation *)









Lemma sum_ints_ones {A : Type} (l : list A) (acc : Z) :
  fold_left Z.add (map (fun _ : A => 1) l) acc = acc + Z.of_nat (List.length l).
Proof.
  revert acc. induction l as [| x l IH]; intros acc; simpl fold_left.
  - simpl. lia.
  - rewrite IH. cbn [List.length]. lia.
Qed.

Lemma vowel_oracle_counts (text : string) :
  vowel_oracle text = Z.of_nat (vowel_occurrences text).
Proof.
  unfold vowel_oracle, vowel_occurrences, sum_ints.
  rewrite sum_ints_ones.
  rewrite (filter_ext _ is_vowel contains_vowels). lia.
Qed.




(** X9.  The count that test_vowel_count_comprehensive computes for its
    text (line 202) is the number of vowels, one less than what
    [count_vowels] returns: its assertion fails on the text of the test and
    would fail on any other text. *)
Theorem vowel_count_check_fails (text : string) :
  vowel_count_check text = Returned false /\
  count_vowels text = Returned (vowel_oracle text + 1) /\
  test_vowel_count_comprehensive = Returned false.
Proof.
  assert (G : forall t, vowel_count_check t = Returned false).
  { intros t. unfold vowel_count_check.
    rewrite count_vowels_offset, vowel_oracle_counts. cbn [bind].
    f_equal. apply Z.eqb_neq. lia. }
  split; [apply G |]. split; [| apply G].
  rewrite count_vowels_offset, vowel_oracle_counts. reflexivity.
Qed.

(** ** find_max_value: ties, concatenation, order *)

Ltac gt_cases :=
  repeat match goal with
         | |- context [Py.gt ?a ?b] =>
             is_var a; is_var b;
             let E := fresh "E" in
             destruct (Py.gt a b) eqn:E;
             [apply gt_true in E | apply gt_false in E]
         end.

Lemma pick_self (x : Q) : pick x x = x.
Proof. unfold pick. destruct (Py.gt x x); reflexivity. Qed.

Lemma pick_assoc (m y z : Q) : pick (pick m y) z = pick m (pick y z).
Proof. unfold pick. gt_cases; try reflexivity; exfalso; lra. Qed.

Lemma fold_pick_shift (l : list Q) (m y : Q) :
  fold_left pick l (pick m y) = pick m (fold_left pick l y).
Proof.
  revert m y. induction l as [| z l IH]; intros m y; simpl; [reflexivity |].
  rewrite pick_assoc. apply IH.
Qed.

(** Either the running maximum survives the scan, or the scan stops on the
    first element that reaches the final value. *)
Lemma fold_pick_earliest (l : list Q) (m0 : Q) :
  (fold_left pick l m0 = m0 /\ forall x, In x l -> (x <= m0)%Q) \/
  exists pre m post,
    l = (pre ++ m :: post)%list /\ fold_left pick l m0 = m /\ (m0 < m)%Q /\
    (forall x, In x pre -> (x < m)%Q) /\ (forall x, In x post -> (x <= m)%Q).
Proof.
  revert m0. induction l as [| y l IH]; intros m0.
  - left. split; [reflexivity | intros x []].
  - cbn [fold_left]. unfold pick at 2 4. destruct (Py.gt y m0) eqn:E.
    + apply gt_true in E. right.
      destruct (IH y) as [[H1 H2] | (pre & m & post & H1 & H2 & H3 & H4 & H5)].
      * exists [], y, l. repeat split; auto. intros x [].
      * exists (y :: pre), m, post. subst l. repeat split; auto.
        -- lra.
        -- intros x [<- | Hx]; [exact H3 | apply H4, Hx].
    + apply gt_false in E.
      destruct (IH m0) as [[H1 H2] | (pre & m & post & H1 & H2 & H3 & H4 & H5)].
      * left. split; [exact H1 |]. intros x [<- | Hx]; [exact E | apply H2, Hx].
      * right. exists (y :: pre), m, post. subst l. repeat split; auto.
        intros x [<- | Hx]; [lra | apply H4, Hx].
Qed.

(** X10.  On a non-empty sequence the returned element is the earliest one
    that reaches the maximum: every element before it is strictly smaller
    and every element after it is at most equal (line 39 replaces the
    running maximum only on a strict [>]). *)
Theorem find_max_value_earliest (numbers : list Q) :
  numbers <> [] ->
  exists (pre : list Q) (m : Q) (post : list Q),
    numbers = (pre ++ m :: post)%list /\
    find_max_value numbers = Returned (Some m) /\
    (forall x : Q, In x pre -> (x < m)%Q) /\
    (forall x : Q, In x post -> (x <= m)%Q).
Proof.
  destruct numbers as [| x rest]; intros H; [contradiction |].
  rewrite find_max_value_fold. cbn [fold_left]. rewrite pick_self.
  destruct (fold_pick_earliest rest x)
    as [[H1 H2] | (pre & m & post & H1 & H2 & H3 & H4 & H5)].
  - exists [], x, rest. rewrite H1. repeat split; auto. intros y [].
  - exists (x :: pre), m, post. subst rest. rewrite H2. repeat split; auto.
    intros y [<- | Hy]; [exact H3 | apply H4, Hy].
Qed.

Lemma find_max_value_earliest_witness :
  exists (pre : list Q) (m : Q) (post : list Q),
    [3; 5; 10 # 2; 2; 5; 1]%Q = (pre ++ m :: post)%list /\
    find_max_value [3; 5; 10 # 2; 2; 5; 1]%Q = Returned (Some m) /\
    (forall x : Q, In x pre -> (x < m)%Q) /\
    (forall x : Q, In x post -> (x <= m)%Q).
Proof. apply find_max_value_earliest. discriminate. Defined.

(** X11.  The maximum of a concatenation is the larger of the two maxima,
    the one of the left part when they compare equal. *)
Theorem find_max_value_concatenation (a b : list Q) (ma mb : Q) :
  find_max_value a = Returned (Some ma) ->
  find_max_value b = Returned (Some mb) ->
  find_max_value (a ++ b) = Returned (Some (pick ma mb)).
Proof.
  destruct a as [| x a]; [discriminate |].
  destruct b as [| y b]; [discriminate |].
  rewrite !find_max_value_fold. intros Ha Hb.
  injection Ha as <-. injection Hb as <-.
  change ((x :: a) ++ y :: b)%list with (x :: (a ++ y :: b))%list.
  rewrite find_max_value_fold. do 2 f_equal.
  cbn [fold_left]. rewrite !pick_self, fold_left_app. cbn [fold_left].
  apply fold_pick_shift.
Qed.

Lemma find_max_value_concatenation_witness :
  find_max_value ([1; 5; 3] ++ [9; 2])%Q = Returned (Some (pick 5 9)%Q).
Proof.
  apply find_max_value_concatenation; reflexivity.
Defined.

(** X12.  Reordering the sequence does not change the value of the maximum
    (the element returned may be another one of the same value). *)
Theorem find_max_value_permutation (a b : list Q) :
  Permutation a b -> a <> [] ->
  exists ma mb : Q,
    find_max_value a = Returned (Some ma) /\
    find_max_value b = Returned (Some mb) /\ (ma == mb)%Q.
Proof.
  intros P Ha.
  destruct a as [| x a]; [contradiction |].
  destruct b as [| y b]; [apply Permutation_sym, Permutation_nil in P; discriminate |].
  exists (fold_left pick (x :: a) x), (fold_left pick (y :: b) y).
  split; [apply find_max_value_fold |]. split; [apply find_max_value_fold |].
  assert (In_a : In (fold_left pick (x :: a) x) (x :: a)).
  { destruct (fold_pick_In (x :: a) x) as [E | E];
      [rewrite E; left; reflexivity | exact E]. }
  assert (In_b : In (fold_left pick (y :: b) y) (y :: b)).
  { destruct (fold_pick_In (y :: b) y) as [E | E];
      [rewrite E; left; reflexivity | exact E]. }
  apply Qle_antisym.
  - apply fold_pick_upper_bound. apply (Permutation_in _ P). exact In_a.
  - apply fold_pick_upper_bound.
    apply (Permutation_in _ (Permutation_sym P)). exact In_b.
Qed.

Lemma find_max_value_permutation_witness :
  exists ma mb : Q,
    find_max_value [1; 9]%Q = Returned (Some ma) /\
    find_max_value [9; 1]%Q = Returned (Some mb) /\ (ma == mb)%Q.
Proof.
  apply find_max_value_permutation; [apply perm_swap | discriminate].
Defined.

Lemma In_range_from (k a : Z) (c : nat) :
  In k (Py.range_from a c) <-> a <= k < a + Z.of_nat c.
Proof.
  revert a. induction c as [| c IH]; intros a; cbn [Py.range_from In].
  - lia.
  - rewrite IH. lia.
Qed.

Lemma In_range_list (q : Q) (n : Z) :
  In q (range_list n) <-> exists k : Z, q = inject_Z k /\ 0 <= k < n.
Proof.
  unfold range_list, Py.range. rewrite in_map_iff. split.
  - intros (k & <- & H). apply In_range_from in H. exists k. split; [reflexivity | lia].
  - intros (k & -> & H). exists k. split; [reflexivity |].
    apply In_range_from. lia.
Qed.

(** X13.  On [list(range(n))] with [n >= 1], the sequence of
    test_find_max_with_large_list, the call returns [n - 1], the last
    element; the assertion of the test holds for its 1000 and for every
    other positive length. *)
Theorem find_max_value_of_range (n : Z) :
  1 <= n ->
  find_max_value (range_list n) = Returned (Some (inject_Z (n - 1))) /\
  large_list_check n = Returned true.
Proof.
  intros H.
  assert (G : find_max_value (range_list n) = Returned (Some (inject_Z (n - 1)))).
  { assert (Hlast : In (inject_Z (n - 1)) (range_list n)).
    { apply In_range_list. exists (n - 1). split; [reflexivity | lia]. }
    destruct (range_list n) as [| x rest] eqn:E; [destruct Hlast |].
    rewrite find_max_value_fold. do 2 f_equal.
    assert (Hin : In (fold_left pick (x :: rest) x) (range_list n)).
    { rewrite E. destruct (fold_pick_In (x :: rest) x) as [F | F];
        [rewrite F; left; reflexivity | exact F]. }
    apply In_range_list in Hin. destruct Hin as (k & Hk & Hrange).
    pose proof (fold_pick_upper_bound (x :: rest) x _ Hlast) as Hle.
    rewrite Hk in Hle |- *. rewrite <- Zle_Qle in Hle.
    f_equal. lia. }
  split; [exact G |].
  unfold large_list_check. rewrite G. cbn [bind].
  f_equal. apply Qeq_bool_iff. reflexivity.
Qed.

Lemma find_max_value_of_range_witness :
  find_max_value (range_list 1000) = Returned (Some (inject_Z (1000 - 1))) /\
  large_list_check 1000 = Returned true.
Proof. apply find_max_value_of_range. lia. Defined.

(** ** calculate_average: lines 23-29 *)









(** ** run_tests: exceptions of the functions under test *)

(** X16.  [run_tests] has no handler: it ends with the first exception
    that one of its five calls raises, taken in the order of the cases, and
    ends normally when none of them raises, whatever the comparisons
    give. *)
Theorem run_tests_outcome (g : globals) (out : list line) :
  snd (run_tests g out)
  = (_ <- g_calculate_average g [1; 2; 3; 4; 5]%Q ;;
     _ <- g_find_max_value g [1; 5; 3; 9; 2]%Q ;;
     _ <- g_is_palindrome g "radar" ;;
     _ <- g_count_vowels g "hello world" ;;
     _ <- g_fibonacci g 6 ;;
     Returned tt).
Proof.
  unfold run_tests. cbn [syntax_error run_tests_text header_colon conditions
    first_assignment]. unfold run_tests_body.
  cbv [io_bind print call io_ret].
  destruct (g_calculate_average g _) as [r1 | e]; [| reflexivity].
  destruct (g_find_max_value g _) as [r2 | e];
    [| destruct (py_eq r1 _); reflexivity].
  destruct (g_is_palindrome g _) as [r3 | e];
    [| destruct (py_eq r1 _), (py_eq r2 _); reflexivity].
  destruct (g_count_vowels g _) as [r4 | e];
    [| destruct (py_eq r1 _), (py_eq r2 _), (py_eq r3 _); reflexivity].
  destruct (g_fibonacci g _) as [r5 | e];
    [| destruct (py_eq r1 _), (py_eq r2 _), (py_eq r3 _), (py_eq r4 _);
       reflexivity].
  destruct (py_eq r1 _), (py_eq r2 _), (py_eq r3 _), (py_eq r4 _),
    (py_eq r5 _); reflexivity.
Qed.



